(** * loam_velodyne: scan registration configuration and IMU interpolation

    A shallow embedding of [src/lib/ScanRegistration.h]: the [PointLabel]
    enumeration, the [RegistrationParams] structure with its constructor and
    [parseParams], [IMUState::interpolate], and the constructor interface of
    [ScanRegistration].

    Numbers.  A C++ [int] is a [Z]; the one arithmetic operation the header
    performs on ints, [10 * x], is written with its 32-bit two's-complement
    wrap-around (signed overflow is undefined in C++; the model takes the
    result every mainstream target produces), and the product is the exact
    one whenever it fits.  The [float] fields of
    [RegistrationParams] are only stored and compared with the constant
    [0.001], never computed with: a [float] is a NaN, an infinity or a
    rational, which every finite float is, and the comparison follows
    IEEE 754 (false on a NaN).  The IMU scalars are computed with.  In
    [interpolate] their arithmetic is taken over the reals ([R]), rounding
    left out, and [M_PI] is [PI]; that model serves the statements about the
    blend expressions and about which fields are written.  Where rounding
    decides which branch the code takes, in the yaw test, [interpolate_yaw]
    works on the binary32 values themselves, with the subtraction and the
    comparison of IEEE 754. *)

From Stdlib Require Import ZArith QArith Reals String List Bool SpecFloat.
From Stdlib Require Import Lia Lra Psatz.
Import ListNotations.

Local Open Scope string_scope.
Local Open Scope Z_scope.

(** ** Machine integers *)

Module Int.

Definition min_signed : Z := - 2 ^ 31.
Definition max_signed : Z := 2 ^ 31 - 1.

Definition in_range (z : Z) : Prop := min_signed <= z <= max_signed.

(** Two's-complement reduction of a mathematical integer to an [int]. *)
Definition wrap (z : Z) : Z := (z + 2 ^ 31) mod 2 ^ 32 - 2 ^ 31.

(** [a * b] on ints. *)
Definition mul (a b : Z) : Z := wrap (a * b).

End Int.

(** ** Point labels (lines 53-58) *)

Inductive PointLabel : Type :=
| CORNER_SHARP
| CORNER_LESS_SHARP
| SURFACE_LESS_FLAT
| SURFACE_FLAT.

(** The enumerator values of the declaration. *)
Definition PointLabel_value (l : PointLabel) : Z :=
  match l with
  | CORNER_SHARP => 2
  | CORNER_LESS_SHARP => 1
  | SURFACE_LESS_FLAT => 0
  | SURFACE_FLAT => -1
  end.

(** ** Registration parameters (lines 63-191) *)

(** A C++ [float] that is stored and compared, not computed with: a NaN, an
    infinity with its sign, or a finite value, which is a rational.  The
    two zeros are not told apart. *)
Inductive float : Type :=
| float_nan
| float_inf (negative : bool)
| float_num (q : Q).

Record RegistrationParams : Type := mkRegistrationParams {
  nFeatureRegions : Z;
  curvatureRegion : Z;
  maxCornerSharp : Z;
  maxCornerLessSharp : Z;
  maxSurfaceFlat : Z;
  lessFlatFilterSize : float;
  surfaceCurvatureThreshold : float
}.

(** A defaulted argument: [None] is an argument left out at the call. *)
Definition arg {A : Type} (dflt : A) (a : option A) : A :=
  match a with
  | Some v => v
  | None => dflt
  end.

(** The constructor (lines 64-76), with its member initialiser list. *)
Definition RegistrationParams_ctor
    (nFeatureRegions_ curvatureRegion_ maxCornerSharp_ maxSurfaceFlat_ : option Z)
    (lessFlatFilterSize_ surfaceCurvatureThreshold_ : option float)
  : RegistrationParams :=
  {| nFeatureRegions := arg 6 nFeatureRegions_;
     curvatureRegion := arg 5 curvatureRegion_;
     maxCornerSharp := arg 2 maxCornerSharp_;
     maxCornerLessSharp := Int.mul 10 (arg 2 maxCornerSharp_);
     maxSurfaceFlat := arg 4 maxSurfaceFlat_;
     lessFlatFilterSize := arg (float_num 0.2) lessFlatFilterSize_;
     surfaceCurvatureThreshold :=
       arg (float_num 0.1) surfaceCurvatureThreshold_ |}.

(** [RegistrationParams()]. *)
Definition RegistrationParams_default : RegistrationParams :=
  RegistrationParams_ctor None None None None None None.

(** *** The node handle

    [ros::NodeHandle] belongs to ROS.  [parseParams] uses two overloads of
    [getParam]: each returns [true] and writes the out-parameter when the
    parameter can be retrieved with that type, and returns [false] and leaves
    it alone otherwise.  A node handle is modelled by what these two lookups
    answer. *)

Record NodeHandle : Type := mkNodeHandle {
  getParam_int : string -> option Z;
  getParam_float : string -> option float
}.

(** A node handle given by two association lists. *)
Fixpoint assoc {A : Type} (l : list (string * A)) (key : string) : option A :=
  match l with
  | [] => None
  | (k, v) :: rest => if String.eqb k key then Some v else assoc rest key
  end.

Definition NodeHandle_of (ints : list (string * Z))
    (floats : list (string * float)) : NodeHandle :=
  {| getParam_int := assoc ints; getParam_float := assoc floats |}.

(** Member assignments. *)
Definition set_nFeatureRegions (v : Z) (p : RegistrationParams) :=
  mkRegistrationParams v (curvatureRegion p) (maxCornerSharp p)
    (maxCornerLessSharp p) (maxSurfaceFlat p) (lessFlatFilterSize p)
    (surfaceCurvatureThreshold p).

Definition set_curvatureRegion (v : Z) (p : RegistrationParams) :=
  mkRegistrationParams (nFeatureRegions p) v (maxCornerSharp p)
    (maxCornerLessSharp p) (maxSurfaceFlat p) (lessFlatFilterSize p)
    (surfaceCurvatureThreshold p).

Definition set_maxCornerSharp (v : Z) (p : RegistrationParams) :=
  mkRegistrationParams (nFeatureRegions p) (curvatureRegion p) v
    (maxCornerLessSharp p) (maxSurfaceFlat p) (lessFlatFilterSize p)
    (surfaceCurvatureThreshold p).

Definition set_maxCornerLessSharp (v : Z) (p : RegistrationParams) :=
  mkRegistrationParams (nFeatureRegions p) (curvatureRegion p)
    (maxCornerSharp p) v (maxSurfaceFlat p) (lessFlatFilterSize p)
    (surfaceCurvatureThreshold p).

Definition set_maxSurfaceFlat (v : Z) (p : RegistrationParams) :=
  mkRegistrationParams (nFeatureRegions p) (curvatureRegion p)
    (maxCornerSharp p) (maxCornerLessSharp p) v (lessFlatFilterSize p)
    (surfaceCurvatureThreshold p).

Definition set_lessFlatFilterSize (v : float) (p : RegistrationParams) :=
  mkRegistrationParams (nFeatureRegions p) (curvatureRegion p)
    (maxCornerSharp p) (maxCornerLessSharp p) (maxSurfaceFlat p) v
    (surfaceCurvatureThreshold p).

Definition set_surfaceCurvatureThreshold (v : float)
    (p : RegistrationParams) :=
  mkRegistrationParams (nFeatureRegions p) (curvatureRegion p)
    (maxCornerSharp p) (maxCornerLessSharp p) (maxSurfaceFlat p)
    (lessFlatFilterSize p) v.

(** *** parseParams (lines 107-177)

    The method threads two pieces of state through seven blocks: the object
    itself and the local [success].  [ROS_ERROR] only logs. *)

Record ParseState : Type := mkParseState {
  this : RegistrationParams;
  success : bool
}.

Definition reject (st : ParseState) : ParseState :=
  mkParseState (this st) false.

Definition assign (f : RegistrationParams -> RegistrationParams)
    (st : ParseState) : ParseState :=
  mkParseState (f (this st)) (success st).

(** [fParam < 0.001]: false on a NaN, as every comparison with a NaN is. *)
Definition float_below_min (fParam : float) : bool :=
  match fParam with
  | float_nan => false
  | float_inf negative => negative
  | float_num q => if Qlt_le_dec q 0.001 then true else false
  end.

(** Lines 112-119. *)
Definition parse_featureRegions (nh : NodeHandle) (st : ParseState) : ParseState :=
  match getParam_int nh "featureRegions" with
  | Some iParam =>
      if iParam <? 1 then reject st
      else assign (set_nFeatureRegions iParam) st
  | None => st
  end.

(** Lines 121-128. *)
Definition parse_curvatureRegion (nh : NodeHandle) (st : ParseState) : ParseState :=
  match getParam_int nh "curvatureRegion" with
  | Some iParam =>
      if iParam <? 1 then reject st
      else assign (set_curvatureRegion iParam) st
  | None => st
  end.

(** Lines 130-138. *)
Definition parse_maxCornerSharp (nh : NodeHandle) (st : ParseState) : ParseState :=
  match getParam_int nh "maxCornerSharp" with
  | Some iParam =>
      if iParam <? 1 then reject st
      else assign (set_maxCornerLessSharp (Int.mul 10 iParam))
             (assign (set_maxCornerSharp iParam) st)
  | None => st
  end.

(** Lines 140-147. *)
Definition parse_maxCornerLessSharp (nh : NodeHandle) (st : ParseState) : ParseState :=
  match getParam_int nh "maxCornerLessSharp" with
  | Some iParam =>
      if iParam <? maxCornerSharp (this st) then reject st
      else assign (set_maxCornerLessSharp iParam) st
  | None => st
  end.

(** Lines 149-156. *)
Definition parse_maxSurfaceFlat (nh : NodeHandle) (st : ParseState) : ParseState :=
  match getParam_int nh "maxSurfaceFlat" with
  | Some iParam =>
      if iParam <? 1 then reject st
      else assign (set_maxSurfaceFlat iParam) st
  | None => st
  end.

(** Lines 158-165. *)
Definition parse_surfaceCurvatureThreshold (nh : NodeHandle) (st : ParseState)
  : ParseState :=
  match getParam_float nh "surfaceCurvatureThreshold" with
  | Some fParam =>
      if float_below_min fParam then reject st
      else assign (set_surfaceCurvatureThreshold fParam) st
  | None => st
  end.

(** Lines 167-174. *)
Definition parse_lessFlatFilterSize (nh : NodeHandle) (st : ParseState)
  : ParseState :=
  match getParam_float nh "lessFlatFilterSize" with
  | Some fParam =>
      if float_below_min fParam then reject st
      else assign (set_lessFlatFilterSize fParam) st
  | None => st
  end.

(** The whole method: the returned flag, and the object as the call leaves it. *)
Definition parseParams (nh : NodeHandle) (p : RegistrationParams)
  : bool * RegistrationParams :=
  let st0 := mkParseState p true in
  let st1 := parse_featureRegions nh st0 in
  let st2 := parse_curvatureRegion nh st1 in
  let st3 := parse_maxCornerSharp nh st2 in
  let st4 := parse_maxCornerLessSharp nh st3 in
  let st5 := parse_maxSurfaceFlat nh st4 in
  let st6 := parse_surfaceCurvatureThreshold nh st5 in
  let st7 := parse_lessFlatFilterSize nh st6 in
  (success st7, this st7).

(** ** IMU state (lines 196-245) *)

(** Modelled from the spec: [Vector3] (its header, math_utils.h, is not among
    the sources covered here) is a 3-component real vector with addition and
    scalar multiply, both componentwise. *)
Record Vector3 : Type := mkVector3 {
  vx : R;
  vy : R;
  vz : R
}.

Definition Vector3_scale (v : Vector3) (k : R) : Vector3 :=
  mkVector3 (vx v * k) (vy v * k) (vz v * k).

Definition Vector3_add (a b : Vector3) : Vector3 :=
  mkVector3 (vx a + vx b) (vy a + vy b) (vz a + vz b).

(** [Angle] comes from the same absent header.  [interpolate] uses two of its
    operations: the conversion from a float, which the assignments
    [result.roll = <float>] go through, and the accessor [rad()].  They are
    taken as an interface. *)
Class AngleOps (Angle : Type) : Type := {
  Angle_of_rad : R -> Angle;
  rad : Angle -> R
}.

(** An angle that keeps its radians as given. *)
Definition PlainAngle : AngleOps R :=
  {| Angle_of_rad := fun x => x; rad := fun x => x |}.

(** [ros::Time]: seconds and nanoseconds. *)
Record RosTime : Type := mkRosTime {
  sec : Z;
  nsec : Z
}.

(** Modelled from the spec: the inertial history (CircularBuffer.h is
    absent) is a bounded sequence of capacity C, empty when created. *)
Record CircularBuffer (A : Type) : Type := mkCircularBuffer {
  capacity : N;
  items : list A
}.

Definition CircularBuffer_new (A : Type) (capacity_ : N) : CircularBuffer A :=
  mkCircularBuffer A capacity_ [].

Arguments capacity {A} _.
Arguments items {A} _.

Section IMU.

Context {Angle : Type} {AO : AngleOps Angle}.

Record IMUState : Type := mkIMUState {
  stamp : RosTime;
  roll : Angle;
  pitch : Angle;
  yaw : Angle;
  position : Vector3;
  velocity : Vector3;
  acceleration : Vector3
}.

Definition set_roll (a : Angle) (s : IMUState) : IMUState :=
  mkIMUState (stamp s) a (pitch s) (yaw s) (position s) (velocity s)
    (acceleration s).

Definition set_pitch (a : Angle) (s : IMUState) : IMUState :=
  mkIMUState (stamp s) (roll s) a (yaw s) (position s) (velocity s)
    (acceleration s).

Definition set_yaw (a : Angle) (s : IMUState) : IMUState :=
  mkIMUState (stamp s) (roll s) (pitch s) a (position s) (velocity s)
    (acceleration s).

Definition set_velocity (v : Vector3) (s : IMUState) : IMUState :=
  mkIMUState (stamp s) (roll s) (pitch s) (yaw s) (position s) v
    (acceleration s).

Definition set_position (v : Vector3) (s : IMUState) : IMUState :=
  mkIMUState (stamp s) (roll s) (pitch s) (yaw s) v (velocity s)
    (acceleration s).

(** [IMUState::interpolate] (lines 225-244).  [result] is passed by
    reference: the function returns the object as the call leaves it.
    Every statement reads a field of [start] and [end] that no earlier
    statement has written, so a [result] that is the same object as
    [start] or [end] makes no difference. *)
Definition interpolate (start end_ : IMUState) (ratio : R)
    (result : IMUState) : IMUState :=
  let invRatio := (1 - ratio)%R in
  let result :=
    set_roll (Angle_of_rad
                (rad (roll start) * invRatio + rad (roll end_) * ratio)%R)
      result in
  let result :=
    set_pitch (Angle_of_rad
                 (rad (pitch start) * invRatio + rad (pitch end_) * ratio)%R)
      result in
  let result :=
    if Rgt_dec (rad (yaw start) - rad (yaw end_)) PI then
      set_yaw (Angle_of_rad
                 (rad (yaw start) * invRatio
                  + (rad (yaw end_) + 2 * PI) * ratio)%R) result
    else if Rlt_dec (rad (yaw start) - rad (yaw end_)) (- PI) then
      set_yaw (Angle_of_rad
                 (rad (yaw start) * invRatio
                  + (rad (yaw end_) - 2 * PI) * ratio)%R) result
    else
      set_yaw (Angle_of_rad
                 (rad (yaw start) * invRatio + rad (yaw end_) * ratio)%R)
        result in
  let result :=
    set_velocity (Vector3_add (Vector3_scale (velocity start) invRatio)
                    (Vector3_scale (velocity end_) ratio)) result in
  set_position (Vector3_add (Vector3_scale (position start) invRatio)
                  (Vector3_scale (position end_) ratio)) result.

(** ** The registration facade (lines 255-398)

    The header declares the constructor and its default arguments
    (lines 257-260); its body is in ScanRegistration.cpp and the buffer
    class in CircularBuffer.h, neither among the sources covered here. *)

Record ScanRegistration : Type := mkScanRegistration {
  _nScans : N;
  _scanPeriod : R;
  _config : RegistrationParams;
  _imuHistory : CircularBuffer IMUState
}.

(** Modelled from the spec: the constructor body (ScanRegistration.cpp is
    absent).  The facade owns an inertial history of capacity C, default
    200; the defaults of the left-out arguments are those of the
    declaration at lines 257-260. *)
Definition ScanRegistration_ctor (scanPeriod : R) (nScans : option N)
    (imuHistorySize : option N) (config : option RegistrationParams)
  : ScanRegistration :=
  {| _nScans := arg 0%N nScans;
     _scanPeriod := scanPeriod;
     _config := arg RegistrationParams_default config;
     _imuHistory := CircularBuffer_new IMUState (arg 200%N imuHistorySize) |}.

End IMU.

Arguments IMUState Angle : clear implicits.
Arguments ScanRegistration Angle : clear implicits.

(** ** Statements about the configuration *)

(** The ranges of the recognised options, as the specification lists them.
    An option that is not specified puts no condition. *)
Definition int_param_ok (nh : NodeHandle) (key : string) (lo : Z) : Prop :=
  match getParam_int nh key with
  | Some v => lo <= v
  | None => True
  end.

(** [f >= 0.001], which a NaN is not. *)
Definition float_ge_min (f : float) : Prop :=
  match f with
  | float_nan => False
  | float_inf negative => negative = false
  | float_num q => (0.001 <= q)%Q
  end.

Definition float_param_ok (nh : NodeHandle) (key : string) : Prop :=
  match getParam_float nh key with
  | Some f => float_ge_min f
  | None => True
  end.

(** Neither float option is specified as a NaN. *)
Definition no_nan (nh : NodeHandle) : Prop :=
  getParam_float nh "surfaceCurvatureThreshold" <> Some float_nan /\
  getParam_float nh "lessFlatFilterSize" <> Some float_nan.

(** A node handle whose only option is a NaN curvature threshold. *)
Definition nh_nan : NodeHandle :=
  NodeHandle_of [] [("surfaceCurvatureThreshold", float_nan)].

(** The [maxCornerSharp] that [maxCornerLessSharp] is measured against: the
    one specified on the node handle when there is one, the one of the
    current configuration otherwise. *)
Definition configured_maxCornerSharp (nh : NodeHandle) (p : RegistrationParams)
  : Z :=
  match getParam_int nh "maxCornerSharp" with
  | Some s => s
  | None => maxCornerSharp p
  end.

Definition specified_valid (nh : NodeHandle) (p : RegistrationParams) : Prop :=
  int_param_ok nh "featureRegions" 1 /\
  int_param_ok nh "curvatureRegion" 1 /\
  int_param_ok nh "maxCornerSharp" 1 /\
  int_param_ok nh "maxCornerLessSharp" (configured_maxCornerSharp nh p) /\
  int_param_ok nh "maxSurfaceFlat" 1 /\
  float_param_ok nh "surfaceCurvatureThreshold" /\
  float_param_ok nh "lessFlatFilterSize".

(** How one option lands in its field when the update goes option by
    option: a valid value is stored, anything else leaves [old]. *)
Definition applied_per_option {A : Type} (o : option A) (valid : A -> Prop)
    (old new : A) : Prop :=
  match o with
  | Some v => (valid v -> new = v) /\ (~ valid v -> new = old)
  | None => new = old
  end.

(** What [maxCornerLessSharp] holds when its own option is reached: ten
    times a valid specified [maxCornerSharp], the prior value otherwise. *)
Definition lessSharp_before_own_option (nh : NodeHandle)
    (p : RegistrationParams) : Z :=
  match getParam_int nh "maxCornerSharp" with
  | Some s => if s <? 1 then maxCornerLessSharp p else Int.mul 10 s
  | None => maxCornerLessSharp p
  end.

(** Closed form of one block: the value a field ends with, and whether the
    block lets [success] through. *)
Definition keep_or_store {A : Type} (o : option A) (bad : A -> bool) (old : A)
  : A :=
  match o with
  | Some v => if bad v then old else v
  | None => old
  end.

Definition accepted {A : Type} (o : option A) (bad : A -> bool) : bool :=
  match o with
  | Some v => negb (bad v)
  | None => true
  end.

Definition below_one (v : Z) : bool := v <? 1.

(** A node handle with a valid [featureRegions] and an invalid
    [curvatureRegion]. *)
Definition nh_mixed : NodeHandle :=
  NodeHandle_of [("featureRegions", 3); ("curvatureRegion", 0)] [].

(** A node handle with a valid [maxCornerSharp = 3] and a
    [maxCornerLessSharp = 5], and a configuration built with
    [maxCornerSharp_ = 7]. *)
Definition nh_sharp_and_less : NodeHandle :=
  NodeHandle_of [("maxCornerSharp", 3); ("maxCornerLessSharp", 5)] [].

Definition config_sharp7 : RegistrationParams :=
  RegistrationParams_ctor None None (Some 7) None None None.

(** A node handle that specifies nothing. *)
Definition nh_empty : NodeHandle := NodeHandle_of [] [].

(** ** The yaw branch on binary32 values (lines 234-240)

    [rad()] returns a [float].  The test of line 234 subtracts two of them
    in binary32, rounding to nearest, and compares the result, promoted to
    [double], with the [double] constant [M_PI]; line 236 does the same with
    [-M_PI].  The values are IEEE 754 ones ([spec_float]), with
    precision 24 and exponent bound 128 for binary32, 53 and 1024 for
    binary64. *)









(** ** Statements about the yaw blend *)






(** ** Further statements about the configuration *)

(** The ranges [parseParams] enforces, read as a condition on a
    configuration: its tests at lines 113, 122, 131, 141, 150, 159 and 168,
    each on the field its block assigns. *)
Definition config_valid (p : RegistrationParams) : Prop :=
  1 <= nFeatureRegions p /\
  1 <= curvatureRegion p /\
  1 <= maxCornerSharp p /\
  maxCornerSharp p <= maxCornerLessSharp p /\
  1 <= maxSurfaceFlat p /\
  float_ge_min (surfaceCurvatureThreshold p) /\
  float_ge_min (lessFlatFilterSize p).

(** None of the seven options can be retrieved. *)
Definition no_options (nh : NodeHandle) : Prop :=
  getParam_int nh "featureRegions" = None /\
  getParam_int nh "curvatureRegion" = None /\
  getParam_int nh "maxCornerSharp" = None /\
  getParam_int nh "maxCornerLessSharp" = None /\
  getParam_int nh "maxSurfaceFlat" = None /\
  getParam_float nh "surfaceCurvatureThreshold" = None /\
  getParam_float nh "lessFlatFilterSize" = None.

(** Two node handles answer the seven lookups alike. *)
Definition same_options (nh nh' : NodeHandle) : Prop :=
  getParam_int nh "featureRegions" = getParam_int nh' "featureRegions" /\
  getParam_int nh "curvatureRegion" = getParam_int nh' "curvatureRegion" /\
  getParam_int nh "maxCornerSharp" = getParam_int nh' "maxCornerSharp" /\
  getParam_int nh "maxCornerLessSharp"
    = getParam_int nh' "maxCornerLessSharp" /\
  getParam_int nh "maxSurfaceFlat" = getParam_int nh' "maxSurfaceFlat" /\
  getParam_float nh "surfaceCurvatureThreshold"
    = getParam_float nh' "surfaceCurvatureThreshold" /\
  getParam_float nh "lessFlatFilterSize"
    = getParam_float nh' "lessFlatFilterSize".

(** A configuration with every specified value laid over it: what a call
    that accepts everything should leave behind. *)
Definition overlay (nh : NodeHandle) (p : RegistrationParams)
  : RegistrationParams :=
  {| nFeatureRegions :=
       arg (nFeatureRegions p) (getParam_int nh "featureRegions");
     curvatureRegion :=
       arg (curvatureRegion p) (getParam_int nh "curvatureRegion");
     maxCornerSharp :=
       arg (maxCornerSharp p) (getParam_int nh "maxCornerSharp");
     maxCornerLessSharp :=
       arg (arg (maxCornerLessSharp p)
              (option_map (Int.mul 10) (getParam_int nh "maxCornerSharp")))
         (getParam_int nh "maxCornerLessSharp");
     maxSurfaceFlat :=
       arg (maxSurfaceFlat p) (getParam_int nh "maxSurfaceFlat");
     lessFlatFilterSize :=
       arg (lessFlatFilterSize p) (getParam_float nh "lessFlatFilterSize");
     surfaceCurvatureThreshold :=
       arg (surfaceCurvatureThreshold p)
         (getParam_float nh "surfaceCurvatureThreshold") |}.

(** A node handle that specifies all seven options with the values of a
    configuration. *)
Definition NodeHandle_of_config (p : RegistrationParams) : NodeHandle :=
  NodeHandle_of
    [("featureRegions", nFeatureRegions p);
     ("curvatureRegion", curvatureRegion p);
     ("maxCornerSharp", maxCornerSharp p);
     ("maxCornerLessSharp", maxCornerLessSharp p);
     ("maxSurfaceFlat", maxSurfaceFlat p)]
    [("surfaceCurvatureThreshold", surfaceCurvatureThreshold p);
     ("lessFlatFilterSize", lessFlatFilterSize p)].

(** A node handle that specifies the six options the constructor takes. *)
Definition NodeHandle_of_args (a b c d : Z) (e f : float) : NodeHandle :=
  NodeHandle_of
    [("featureRegions", a); ("curvatureRegion", b); ("maxCornerSharp", c);
     ("maxSurfaceFlat", d)]
    [("lessFlatFilterSize", e); ("surfaceCurvatureThreshold", f)].

(** A node handle with an option [parseParams] does not know. *)
Definition nh_mixed_and_more : NodeHandle :=
  NodeHandle_of
    [("scanPeriod", 7); ("featureRegions", 3); ("curvatureRegion", 0)]
    [("imuHistorySize", float_num 0.5)].

(** ** interpolate on references

    The C++ function takes [start], [end] and [result] by reference, and
    nothing stops a caller from passing the same object twice.  Here the
    states live in a store, the three arguments are addresses, and each
    statement of lines 230-243 reads the store as the statements before it
    have left it. *)

Section IMURef.

Context {Angle : Type} {AO : AngleOps Angle}.

Definition Store : Type := nat -> IMUState Angle.

Definition update (h : Store) (a : nat) (s : IMUState Angle) : Store :=
  fun b => if Nat.eqb b a then s else h b.

Definition interpolate_ref (start end_ result : nat) (ratio : R) (h : Store)
  : Store :=
  let invRatio := (1 - ratio)%R in
  let h :=
    update h result
      (set_roll (Angle_of_rad
                   (rad (roll (h start)) * invRatio
                    + rad (roll (h end_)) * ratio)%R) (h result)) in
  let h :=
    update h result
      (set_pitch (Angle_of_rad
                    (rad (pitch (h start)) * invRatio
                     + rad (pitch (h end_)) * ratio)%R) (h result)) in
  let h :=
    if Rgt_dec (rad (yaw (h start)) - rad (yaw (h end_))) PI then
      update h result
        (set_yaw (Angle_of_rad
                    (rad (yaw (h start)) * invRatio
                     + (rad (yaw (h end_)) + 2 * PI) * ratio)%R) (h result))
    else if Rlt_dec (rad (yaw (h start)) - rad (yaw (h end_))) (- PI) then
      update h result
        (set_yaw (Angle_of_rad
                    (rad (yaw (h start)) * invRatio
                     + (rad (yaw (h end_)) - 2 * PI) * ratio)%R) (h result))
    else
      update h result
        (set_yaw (Angle_of_rad
                    (rad (yaw (h start)) * invRatio
                     + rad (yaw (h end_)) * ratio)%R) (h result)) in
  let h :=
    update h result
      (set_velocity
         (Vector3_add (Vector3_scale (velocity (h start)) invRatio)
            (Vector3_scale (velocity (h end_)) ratio)) (h result)) in
  update h result
    (set_position
       (Vector3_add (Vector3_scale (position (h start)) invRatio)
          (Vector3_scale (position (h end_)) ratio)) (h result)).

End IMURef.

(** A state with the given roll, yaw and position, at rest otherwise. *)
Definition imu_sample (r y : R) (pos : Vector3) : IMUState R :=
  {| stamp := mkRosTime 0 0;
     roll := r;
     pitch := 0%R;
     yaw := y;
     position := pos;
     velocity := mkVector3 0 0 0;
     acceleration := mkVector3 0 0 0 |}.

(** A store with one state at address 0 and another everywhere else. *)
Definition store_two : nat -> IMUState R :=
  fun a =>
    if Nat.eqb a 0 then imu_sample 1 3 (mkVector3 1 2 3)
    else imu_sample 0 (- 3) (mkVector3 5 2 3).

(** * Proofs *)

(** ** Machine integers *)

Lemma Int_wrap_in_range (z : Z) : Int.in_range (Int.wrap z).
Proof.
  unfold Int.in_range, Int.wrap, Int.min_signed, Int.max_signed.
  pose proof (Z.mod_pos_bound (z + 2 ^ 31) (2 ^ 32) ltac:(lia)). lia.
Qed.

Lemma Int_wrap_small (z : Z) : Int.in_range z -> Int.wrap z = z.
Proof.
  unfold Int.in_range, Int.wrap, Int.min_signed, Int.max_signed. intros Hz.
  rewrite Z.mod_small by lia. lia.
Qed.

Lemma Int_mul_exact (a b : Z) : Int.in_range (a * b) -> Int.mul a b = a * b.
Proof. apply Int_wrap_small. Qed.

(** ** parseParams, block by block *)

Ltac unfold_setters :=
  unfold set_nFeatureRegions, set_curvatureRegion, set_maxCornerSharp,
    set_maxCornerLessSharp, set_maxSurfaceFlat, set_lessFlatFilterSize,
    set_surfaceCurvatureThreshold.

(** One block, on a state taken apart: split on the lookup, then on the
    range test. *)
Ltac block_cases nh :=
  unfold keep_or_store, accepted, below_one, reject, assign;
  unfold_setters; cbn;
  match goal with
  | |- context [getParam_int nh ?key] => destruct (getParam_int nh key)
  | |- context [getParam_float nh ?key] => destruct (getParam_float nh key)
  end;
  cbn;
  repeat match goal with
         | |- context [if ?c then _ else _] => destruct c; cbn
         end;
  rewrite ?andb_true_r, ?andb_false_r; reflexivity.

Lemma parse_featureRegions_eq (nh : NodeHandle) (st : ParseState) :
  parse_featureRegions nh st =
    mkParseState
      (set_nFeatureRegions
         (keep_or_store (getParam_int nh "featureRegions") below_one
            (nFeatureRegions (this st))) (this st))
      (success st && accepted (getParam_int nh "featureRegions") below_one).
Proof.
  destruct st as [[] ok]. unfold parse_featureRegions. block_cases nh.
Qed.

Lemma parse_curvatureRegion_eq (nh : NodeHandle) (st : ParseState) :
  parse_curvatureRegion nh st =
    mkParseState
      (set_curvatureRegion
         (keep_or_store (getParam_int nh "curvatureRegion") below_one
            (curvatureRegion (this st))) (this st))
      (success st && accepted (getParam_int nh "curvatureRegion") below_one).
Proof.
  destruct st as [[] ok]. unfold parse_curvatureRegion. block_cases nh.
Qed.

Lemma parse_maxCornerSharp_eq (nh : NodeHandle) (st : ParseState) :
  parse_maxCornerSharp nh st =
    mkParseState
      (set_maxCornerLessSharp
         (lessSharp_before_own_option nh (this st))
         (set_maxCornerSharp
            (keep_or_store (getParam_int nh "maxCornerSharp") below_one
               (maxCornerSharp (this st))) (this st)))
      (success st && accepted (getParam_int nh "maxCornerSharp") below_one).
Proof.
  destruct st as [[] ok].
  unfold parse_maxCornerSharp, lessSharp_before_own_option. block_cases nh.
Qed.

Lemma parse_maxCornerLessSharp_eq (nh : NodeHandle) (st : ParseState) :
  parse_maxCornerLessSharp nh st =
    mkParseState
      (set_maxCornerLessSharp
         (keep_or_store (getParam_int nh "maxCornerLessSharp")
            (fun v => v <? maxCornerSharp (this st))
            (maxCornerLessSharp (this st))) (this st))
      (success st
       && accepted (getParam_int nh "maxCornerLessSharp")
            (fun v => v <? maxCornerSharp (this st))).
Proof.
  destruct st as [[] ok]. unfold parse_maxCornerLessSharp. block_cases nh.
Qed.

Lemma parse_maxSurfaceFlat_eq (nh : NodeHandle) (st : ParseState) :
  parse_maxSurfaceFlat nh st =
    mkParseState
      (set_maxSurfaceFlat
         (keep_or_store (getParam_int nh "maxSurfaceFlat") below_one
            (maxSurfaceFlat (this st))) (this st))
      (success st && accepted (getParam_int nh "maxSurfaceFlat") below_one).
Proof.
  destruct st as [[] ok]. unfold parse_maxSurfaceFlat. block_cases nh.
Qed.

Lemma parse_surfaceCurvatureThreshold_eq (nh : NodeHandle) (st : ParseState) :
  parse_surfaceCurvatureThreshold nh st =
    mkParseState
      (set_surfaceCurvatureThreshold
         (keep_or_store (getParam_float nh "surfaceCurvatureThreshold")
            float_below_min (surfaceCurvatureThreshold (this st))) (this st))
      (success st
       && accepted (getParam_float nh "surfaceCurvatureThreshold")
            float_below_min).
Proof.
  destruct st as [[] ok]. unfold parse_surfaceCurvatureThreshold.
  block_cases nh.
Qed.

Lemma parse_lessFlatFilterSize_eq (nh : NodeHandle) (st : ParseState) :
  parse_lessFlatFilterSize nh st =
    mkParseState
      (set_lessFlatFilterSize
         (keep_or_store (getParam_float nh "lessFlatFilterSize")
            float_below_min (lessFlatFilterSize (this st))) (this st))
      (success st
       && accepted (getParam_float nh "lessFlatFilterSize") float_below_min).
Proof.
  destruct st as [[] ok]. unfold parse_lessFlatFilterSize. block_cases nh.
Qed.

(** Runs the seven blocks in order on an object taken apart, normalising
    the state after each one so that it stays a plain record. *)
Ltac normalise_state :=
  cbv [set_nFeatureRegions set_curvatureRegion set_maxCornerSharp
       set_maxCornerLessSharp set_maxSurfaceFlat set_lessFlatFilterSize
       set_surfaceCurvatureThreshold lessSharp_before_own_option
       nFeatureRegions curvatureRegion maxCornerSharp maxCornerLessSharp
       maxSurfaceFlat lessFlatFilterSize surfaceCurvatureThreshold
       this success fst snd].

Ltac run_blocks :=
  unfold parseParams; cbv zeta;
  rewrite parse_featureRegions_eq; normalise_state;
  rewrite parse_curvatureRegion_eq; normalise_state;
  rewrite parse_maxCornerSharp_eq; normalise_state;
  rewrite parse_maxCornerLessSharp_eq; normalise_state;
  rewrite parse_maxSurfaceFlat_eq; normalise_state;
  rewrite parse_surfaceCurvatureThreshold_eq; normalise_state;
  rewrite parse_lessFlatFilterSize_eq; normalise_state.

(** ** parseParams in closed form *)

(** The flag returned is the conjunction of the seven blocks' verdicts. *)
Lemma parseParams_success (nh : NodeHandle) (p : RegistrationParams) :
  fst (parseParams nh p) =
    accepted (getParam_int nh "featureRegions") below_one
    && accepted (getParam_int nh "curvatureRegion") below_one
    && accepted (getParam_int nh "maxCornerSharp") below_one
    && accepted (getParam_int nh "maxCornerLessSharp")
         (fun v => v <? keep_or_store (getParam_int nh "maxCornerSharp")
                          below_one (maxCornerSharp p))
    && accepted (getParam_int nh "maxSurfaceFlat") below_one
    && accepted (getParam_float nh "surfaceCurvatureThreshold") float_below_min
    && accepted (getParam_float nh "lessFlatFilterSize") float_below_min.
Proof. destruct p. run_blocks. reflexivity. Qed.

(** The object the call leaves behind, field by field. *)
Lemma parseParams_this (nh : NodeHandle) (p : RegistrationParams) :
  snd (parseParams nh p) =
    let sharp :=
      keep_or_store (getParam_int nh "maxCornerSharp") below_one
        (maxCornerSharp p) in
    {| nFeatureRegions :=
         keep_or_store (getParam_int nh "featureRegions") below_one
           (nFeatureRegions p);
       curvatureRegion :=
         keep_or_store (getParam_int nh "curvatureRegion") below_one
           (curvatureRegion p);
       maxCornerSharp := sharp;
       maxCornerLessSharp :=
         keep_or_store (getParam_int nh "maxCornerLessSharp")
           (fun v => v <? sharp) (lessSharp_before_own_option nh p);
       maxSurfaceFlat :=
         keep_or_store (getParam_int nh "maxSurfaceFlat") below_one
           (maxSurfaceFlat p);
       lessFlatFilterSize :=
         keep_or_store (getParam_float nh "lessFlatFilterSize")
           float_below_min (lessFlatFilterSize p);
       surfaceCurvatureThreshold :=
         keep_or_store (getParam_float nh "surfaceCurvatureThreshold")
           float_below_min (surfaceCurvatureThreshold p) |}.
Proof. destruct p. run_blocks. reflexivity. Qed.

(** ** Verdicts and ranges *)

Lemma accepted_int_iff (o : option Z) (lo : Z) :
  accepted o (fun v => v <? lo) = true <->
  match o with Some v => lo <= v | None => True end.
Proof.
  destruct o as [v|]; cbn; [|tauto].
  destruct (Z.ltb_spec v lo); cbn; split; intros; try lia; discriminate.
Qed.

(** A float in range passes the test; a float that passes the test is in
    range unless it is a NaN. *)
Lemma float_ge_min_passes (f : float) :
  float_ge_min f -> float_below_min f = false.
Proof.
  destruct f as [|negative|q]; cbn.
  - contradiction.
  - tauto.
  - intros Hle. destruct (Qlt_le_dec q 0.001) as [Hlt|_]; [|reflexivity].
    exfalso. exact (Qlt_not_le _ _ Hlt Hle).
Qed.

Lemma float_below_min_false (f : float) :
  f <> float_nan -> (float_below_min f = false <-> float_ge_min f).
Proof.
  intros Hnum. split; [|apply float_ge_min_passes].
  destruct f as [|negative|q]; cbn.
  - contradiction.
  - tauto.
  - destruct (Qlt_le_dec q 0.001) as [_|Hle]; [discriminate|]. intros _.
    exact Hle.
Qed.

Lemma accepted_float_iff (o : option float) :
  o <> Some float_nan ->
  (accepted o float_below_min = true <->
   match o with Some f => float_ge_min f | None => True end).
Proof.
  intros Hnum. destruct o as [f|]; cbn; [|tauto].
  rewrite negb_true_iff. apply float_below_min_false. congruence.
Qed.

(** With no NaN specified, the flag is the verdict of the ranges. *)
Lemma parseParams_verdict (nh : NodeHandle) (p : RegistrationParams) :
  no_nan nh ->
  (fst (parseParams nh p) = true <-> specified_valid nh p).
Proof.
  intros [Hthreshold Hsize]. rewrite parseParams_success.
  unfold specified_valid, int_param_ok, float_param_ok,
    configured_maxCornerSharp, below_one.
  rewrite !andb_true_iff, !accepted_int_iff,
    (accepted_float_iff _ Hthreshold), (accepted_float_iff _ Hsize).
  destruct (getParam_int nh "maxCornerSharp") as [s|]; cbn [keep_or_store].
  - destruct (Z.ltb_spec s 1); intuition lia.
  - tauto.
Qed.

(** Options that meet their ranges hold no NaN. *)
Lemma specified_valid_no_nan (nh : NodeHandle) (p : RegistrationParams) :
  specified_valid nh p -> no_nan nh.
Proof.
  unfold specified_valid, float_param_ok, no_nan.
  intros (_ & _ & _ & _ & _ & Hthreshold & Hsize).
  split; intros Hnan; [rewrite Hnan in Hthreshold | rewrite Hnan in Hsize];
    contradiction.
Qed.

Lemma keep_or_store_applied {A : Type} (o : option A) (bad : A -> bool)
    (valid : A -> Prop) (old : A) :
  (forall v, o = Some v -> (bad v = false <-> valid v)) ->
  applied_per_option o valid old (keep_or_store o bad old).
Proof.
  intros Hbad. destruct o as [v|]; cbn; [|reflexivity].
  specialize (Hbad v eq_refl). destruct (bad v); split; intros Hv.
  - apply Hbad in Hv. discriminate.
  - reflexivity.
  - reflexivity.
  - exfalso. apply Hv, Hbad. reflexivity.
Qed.

Lemma below_bound_false (lo v : Z) : (v <? lo) = false <-> lo <= v.
Proof. rewrite Z.ltb_ge. tauto. Qed.

(** ** The claims on the configuration *)

(** C1, as the source has it.  When at least one specified option is out
    of range, [parseParams] returns [false], and the update has gone through
    option by option: each field holds its specified value when that value
    is in range and is otherwise left as it was, where for
    [maxCornerLessSharp] "as it was" is ten times a valid specified
    [maxCornerSharp] when there is one, and its range is measured against
    the [maxCornerSharp] the call ends with.  A float option specified as a
    NaN is left out of the statement. *)
Theorem parseParams_rejects_per_option (nh : NodeHandle)
    (p : RegistrationParams) :
  no_nan nh ->
  ~ specified_valid nh p ->
  let r := parseParams nh p in
  fst r = false /\
  applied_per_option (getParam_int nh "featureRegions") (fun v => 1 <= v)
    (nFeatureRegions p) (nFeatureRegions (snd r)) /\
  applied_per_option (getParam_int nh "curvatureRegion") (fun v => 1 <= v)
    (curvatureRegion p) (curvatureRegion (snd r)) /\
  applied_per_option (getParam_int nh "maxCornerSharp") (fun v => 1 <= v)
    (maxCornerSharp p) (maxCornerSharp (snd r)) /\
  applied_per_option (getParam_int nh "maxCornerLessSharp")
    (fun v => maxCornerSharp (snd r) <= v)
    (lessSharp_before_own_option nh p) (maxCornerLessSharp (snd r)) /\
  applied_per_option (getParam_int nh "maxSurfaceFlat") (fun v => 1 <= v)
    (maxSurfaceFlat p) (maxSurfaceFlat (snd r)) /\
  applied_per_option (getParam_float nh "surfaceCurvatureThreshold")
    float_ge_min
    (surfaceCurvatureThreshold p) (surfaceCurvatureThreshold (snd r)) /\
  applied_per_option (getParam_float nh "lessFlatFilterSize")
    float_ge_min
    (lessFlatFilterSize p) (lessFlatFilterSize (snd r)).
Proof.
  intros Hnum Hbad r. split.
  - destruct (fst r) eqn:Hr; [|reflexivity].
    exfalso. apply Hbad, (parseParams_verdict nh p Hnum), Hr.
  - destruct Hnum as [Hthreshold Hsize].
    subst r. rewrite parseParams_this. cbn.
    repeat split;
      apply keep_or_store_applied; intros v Hv;
      first [ apply below_bound_false
            | apply float_below_min_false; congruence ].
Qed.

(** The statement above at a valid [featureRegions = 3] next to an invalid
    [curvatureRegion = 0], on the default configuration. *)
Lemma parseParams_rejects_per_option_witness :
  no_nan nh_mixed /\
  ~ specified_valid nh_mixed RegistrationParams_default /\
  fst (parseParams nh_mixed RegistrationParams_default) = false.
Proof.
  assert (Hnum : no_nan nh_mixed) by (split; discriminate).
  assert (Hbad : ~ specified_valid nh_mixed RegistrationParams_default).
  { unfold specified_valid, int_param_ok. cbn. lia. }
  refine (conj Hnum (conj Hbad _)).
  exact (proj1 (parseParams_rejects_per_option nh_mixed
                  RegistrationParams_default Hnum Hbad)).
Defined.

(** The update is not rejected as a whole: on the same node handle the call
    returns [false], yet [nFeatureRegions], whose specified value was valid,
    went from 6 to 3. *)
Lemma parseParams_not_atomic :
  ~ specified_valid nh_mixed RegistrationParams_default /\
  fst (parseParams nh_mixed RegistrationParams_default) = false /\
  nFeatureRegions RegistrationParams_default = 6 /\
  nFeatureRegions (snd (parseParams nh_mixed RegistrationParams_default)) = 3 /\
  snd (parseParams nh_mixed RegistrationParams_default)
    <> RegistrationParams_default.
Proof.
  split; [unfold specified_valid, int_param_ok; cbn; lia|].
  repeat split; try reflexivity.
  intros Heq. apply (f_equal nFeatureRegions) in Heq. vm_compute in Heq.
  discriminate.
Qed.

(** C2, at the input where the source departs from it.  A curvature
    threshold specified as a NaN is not at least 0.001, so not every
    specified option is in its range; the test [fParam < 0.001] is false on
    it all the same, and the call returns [true] and stores the NaN. *)
Theorem parseParams_accepts_nan :
  ~ float_ge_min float_nan /\
  ~ specified_valid nh_nan RegistrationParams_default /\
  fst (parseParams nh_nan RegistrationParams_default) = true /\
  surfaceCurvatureThreshold (snd (parseParams nh_nan RegistrationParams_default))
  = float_nan.
Proof.
  split; [exact (fun H => H)|]. split; [|split; reflexivity].
  unfold specified_valid, float_param_ok. cbn. tauto.
Qed.

(** C6.  The default-constructed configuration: 6 feature regions, a
    curvature region of 5, at most 2 sharp and 20 = 10 x 2 less sharp
    corners, at most 4 flat surface points, curvature threshold 0.1 and
    less-flat filter size 0.2. *)
Theorem RegistrationParams_default_values :
  nFeatureRegions RegistrationParams_default = 6 /\
  curvatureRegion RegistrationParams_default = 5 /\
  maxCornerSharp RegistrationParams_default = 2 /\
  maxCornerLessSharp RegistrationParams_default = 20 /\
  maxCornerLessSharp RegistrationParams_default
    = 10 * maxCornerSharp RegistrationParams_default /\
  maxSurfaceFlat RegistrationParams_default = 4 /\
  surfaceCurvatureThreshold RegistrationParams_default = float_num 0.1 /\
  lessFlatFilterSize RegistrationParams_default = float_num 0.2.
Proof. repeat split. Qed.

(** C7.  The enumerators of [PointLabel] have the values 2, 1, 0 and -1,
    and these four are all the values a label has. *)
Theorem PointLabel_values :
  PointLabel_value CORNER_SHARP = 2 /\
  PointLabel_value CORNER_LESS_SHARP = 1 /\
  PointLabel_value SURFACE_LESS_FLAT = 0 /\
  PointLabel_value SURFACE_FLAT = -1 /\
  forall z : Z,
    (exists l, PointLabel_value l = z) <-> z = 2 \/ z = 1 \/ z = 0 \/ z = -1.
Proof.
  repeat split; intros.
  - destruct H as [[] <-]; cbn; tauto.
  - destruct H as [-> | [-> | [-> | ->]]];
      [ exists CORNER_SHARP | exists CORNER_LESS_SHARP
      | exists SURFACE_LESS_FLAT | exists SURFACE_FLAT ]; reflexivity.
Qed.

(** C9.  When the node handle specifies a valid [maxCornerSharp], its block
    stores it and sets [maxCornerLessSharp] to ten times it (the int
    product, exact whenever it fits).  At the end of the call
    [maxCornerSharp] is the new value; [maxCornerLessSharp] is ten times it
    unless a [maxCornerLessSharp] is specified too, and that one is stored
    exactly when it is at least the new [maxCornerSharp], whatever the prior
    configuration was; otherwise the call fails and the tenfold value
    stays.  With the two blocks in the other order the specified value
    would be overwritten. *)
Theorem parseParams_maxCornerSharp_resets_lessSharp (nh : NodeHandle)
    (p : RegistrationParams) (s : Z) :
  getParam_int nh "maxCornerSharp" = Some s ->
  1 <= s ->
  let r := parseParams nh p in
  (forall st,
     maxCornerSharp (this (parse_maxCornerSharp nh st)) = s /\
     maxCornerLessSharp (this (parse_maxCornerSharp nh st)) = Int.mul 10 s) /\
  (10 * s <= Int.max_signed -> Int.mul 10 s = 10 * s) /\
  maxCornerSharp (snd r) = s /\
  match getParam_int nh "maxCornerLessSharp" with
  | None => maxCornerLessSharp (snd r) = Int.mul 10 s
  | Some l =>
      (s <= l -> maxCornerLessSharp (snd r) = l) /\
      (l < s -> maxCornerLessSharp (snd r) = Int.mul 10 s /\ fst r = false)
  end /\
  (forall st,
     maxCornerLessSharp
       (this (parse_maxCornerSharp nh (parse_maxCornerLessSharp nh st)))
     = Int.mul 10 s).
Proof.
  intros Hs Hvalid r.
  assert (Hnot_below : (s <? 1) = false) by (apply Z.ltb_ge; lia).
  assert (Hblock : forall st,
            maxCornerSharp (this (parse_maxCornerSharp nh st)) = s /\
            maxCornerLessSharp (this (parse_maxCornerSharp nh st))
              = Int.mul 10 s).
  { intros st. unfold parse_maxCornerSharp. rewrite Hs, Hnot_below.
    split; reflexivity. }
  split; [exact Hblock|]. split.
  { intros Hfit. apply Int_mul_exact.
    unfold Int.in_range, Int.min_signed, Int.max_signed in *. lia. }
  assert (Hthis := parseParams_this nh p).
  assert (Hflag := parseParams_success nh p).
  fold r in Hthis, Hflag. cbv zeta in Hthis.
  unfold lessSharp_before_own_option in Hthis.
  rewrite Hs in Hthis, Hflag. cbn [keep_or_store accepted] in Hthis, Hflag.
  unfold below_one in Hthis, Hflag. rewrite Hnot_below in Hthis, Hflag.
  rewrite Hthis. cbn [maxCornerSharp maxCornerLessSharp].
  split; [reflexivity|]. split.
  - destruct (getParam_int nh "maxCornerLessSharp") as [l|];
      cbn [keep_or_store]; [|reflexivity].
    destruct (Z.ltb_spec l s) as [Hlt|Hge].
    + split; [lia|]. intros _. split; [reflexivity|].
      rewrite Hflag. cbn [accepted].
      replace (l <? s) with true by (symmetry; apply Z.ltb_lt; exact Hlt).
      cbn [negb]. rewrite !andb_false_r. reflexivity.
    + split; [reflexivity|lia].
  - intros st. apply Hblock.
Qed.

(** The statement above at [maxCornerSharp = 3] with
    [maxCornerLessSharp = 5]: 5 is below the prior [maxCornerSharp] of 7 and
    is stored all the same. *)
Lemma parseParams_maxCornerSharp_resets_lessSharp_witness :
  getParam_int nh_sharp_and_less "maxCornerSharp" = Some 3 /\
  1 <= 3 /\
  maxCornerSharp (snd (parseParams nh_sharp_and_less config_sharp7)) = 3 /\
  maxCornerLessSharp (snd (parseParams nh_sharp_and_less config_sharp7)) = 5.
Proof.
  assert (Hvalid : 1 <= 3) by lia.
  pose proof (parseParams_maxCornerSharp_resets_lessSharp nh_sharp_and_less
                config_sharp7 3 eq_refl Hvalid) as (_ & _ & Hsharp & Hless & _).
  cbn in Hless. destruct Hless as [Hstored _].
  refine (conj eq_refl (conj Hvalid (conj Hsharp (Hstored _)))). lia.
Defined.

(** C10.  The constructor stores whatever it is given, with no range
    check: each field is its argument, and [maxCornerLessSharp] is ten
    times the [maxCornerSharp_] argument (the int product, exact whenever it
    fits).  So zero feature regions can be constructed, and a negative
    [maxCornerSharp_] gives a negative [maxCornerLessSharp]. *)
Theorem RegistrationParams_ctor_unvalidated :
  (forall (a b c d : Z) (e f : float),
     let p := RegistrationParams_ctor (Some a) (Some b) (Some c) (Some d)
                (Some e) (Some f) in
     nFeatureRegions p = a /\
     curvatureRegion p = b /\
     maxCornerSharp p = c /\
     maxSurfaceFlat p = d /\
     lessFlatFilterSize p = e /\
     surfaceCurvatureThreshold p = f /\
     maxCornerLessSharp p = Int.mul 10 c /\
     (Int.in_range (10 * c) -> maxCornerLessSharp p = 10 * c)) /\
  nFeatureRegions
    (RegistrationParams_ctor (Some 0) None None None None None) = 0 /\
  maxCornerLessSharp
    (RegistrationParams_ctor None None (Some (-1)) None None None) = -10.
Proof.
  split; [|split; reflexivity].
  intros a b c d e f p. subst p.
  unfold RegistrationParams_ctor, arg.
  cbn [nFeatureRegions curvatureRegion maxCornerSharp maxCornerLessSharp
       maxSurfaceFlat lessFlatFilterSize surfaceCurvatureThreshold].
  do 7 (split; [reflexivity|]). apply Int_mul_exact.
Qed.

(** The statement above at [maxCornerSharp_ = -3]. *)
Lemma RegistrationParams_ctor_unvalidated_witness :
  Int.in_range (10 * -3) /\
  maxCornerLessSharp
    (RegistrationParams_ctor (Some 0) (Some 5) (Some (-3)) (Some 4)
       (Some (float_num 0.2)) (Some float_nan)) = -30.
Proof.
  assert (Hfit : Int.in_range (10 * -3)).
  { unfold Int.in_range, Int.min_signed, Int.max_signed. lia. }
  split; [exact Hfit|].
  pose proof (proj1 RegistrationParams_ctor_unvalidated 0 5 (-3) 4
                (float_num 0.2) float_nan) as H.
  cbv zeta in H. destruct H as (_ & _ & _ & _ & _ & _ & _ & Hexact).
  exact (Hexact Hfit).
Defined.

(** ** The claims on the IMU state and the facade *)

Section IMUFacts.

Context {Angle : Type} {AO : AngleOps Angle}.

Local Open Scope R_scope.

Ltac run_interpolate :=
  unfold interpolate;
  repeat match goal with
         | |- context [Rgt_dec ?a ?b] => destruct (Rgt_dec a b)
         | |- context [Rlt_dec ?a ?b] => destruct (Rlt_dec a b)
         end;
  cbn.

(** C4.  Roll, pitch, position and velocity are the linear blend
    [start * (1 - ratio) + end * ratio], the two vectors component by
    component. *)
Theorem interpolate_linear_blend start end_ ratio result :
  let r := interpolate start end_ ratio result in
  roll r
    = Angle_of_rad (rad (roll start) * (1 - ratio)
                    + rad (roll end_) * ratio) /\
  pitch r
    = Angle_of_rad (rad (pitch start) * (1 - ratio)
                    + rad (pitch end_) * ratio) /\
  vx (position r)
    = vx (position start) * (1 - ratio) + vx (position end_) * ratio /\
  vy (position r)
    = vy (position start) * (1 - ratio) + vy (position end_) * ratio /\
  vz (position r)
    = vz (position start) * (1 - ratio) + vz (position end_) * ratio /\
  vx (velocity r)
    = vx (velocity start) * (1 - ratio) + vx (velocity end_) * ratio /\
  vy (velocity r)
    = vy (velocity start) * (1 - ratio) + vy (velocity end_) * ratio /\
  vz (velocity r)
    = vz (velocity start) * (1 - ratio) + vz (velocity end_) * ratio.
Proof. intros r. subst r. run_interpolate; repeat split. Qed.

(** C5.  [interpolate] leaves the acceleration and the stamp of [result]
    as they were, and what it writes to roll, pitch, yaw, velocity and
    position does not depend on what [result] held. *)
Theorem interpolate_frame start end_ ratio result :
  let r := interpolate start end_ ratio result in
  acceleration r = acceleration result /\
  stamp r = stamp result /\
  forall result',
    let r' := interpolate start end_ ratio result' in
    roll r' = roll r /\ pitch r' = pitch r /\ yaw r' = yaw r /\
    velocity r' = velocity r /\ position r' = position r /\
    acceleration r' = acceleration result' /\ stamp r' = stamp result'.
Proof.
  intros r. subst r. split; [|split].
  - run_interpolate; reflexivity.
  - run_interpolate; reflexivity.
  - intros result' r'. subst r'. run_interpolate; repeat split.
Qed.

(** C8.  A facade constructed without an [imuHistorySize] argument has an
    inertial history of capacity 200, empty at first; with the argument,
    the capacity is the argument. *)
Theorem ScanRegistration_default_history_capacity
    (scanPeriod : R) (nScans : option N)
    (config : option RegistrationParams) :
  capacity
    (_imuHistory
       (ScanRegistration_ctor (Angle := Angle) scanPeriod nScans None config))
    = 200%N /\
  items
    (_imuHistory
       (ScanRegistration_ctor (Angle := Angle) scanPeriod nScans None config))
    = [] /\
  forall n : N,
    capacity
      (_imuHistory
         (ScanRegistration_ctor (Angle := Angle) scanPeriod nScans (Some n)
            config))
    = n.
Proof. repeat split. Qed.

End IMUFacts.

(** ** The claim on the yaw branch *)











(** * Further properties of the configuration *)

Lemma parseParams_pair (nh : NodeHandle) (p : RegistrationParams) :
  parseParams nh p = (fst (parseParams nh p), snd (parseParams nh p)).
Proof. apply surjective_pairing. Qed.

Lemma keep_or_store_idem {A : Type} (o : option A) (bad : A -> bool) (old : A) :
  keep_or_store o bad (keep_or_store o bad old) = keep_or_store o bad old.
Proof. destruct o as [v|]; cbn; [destruct (bad v)|]; reflexivity. Qed.

Lemma keep_or_store_accepted {A : Type} (o : option A) (bad : A -> bool)
    (old : A) :
  accepted o bad = true -> keep_or_store o bad old = arg old o.
Proof.
  destruct o as [v|]; cbn; [|reflexivity].
  destruct (bad v); [discriminate|reflexivity].
Qed.

Lemma keep_or_store_valid {A : Type} (o : option A) (bad : A -> bool)
    (valid : A -> Prop) (old : A) :
  (forall v, bad v = false -> valid v) ->
  valid old -> valid (keep_or_store o bad old).
Proof.
  intros Hbad Hold. destruct o as [v|]; cbn; [|exact Hold].
  destruct (bad v) eqn:Hv; [exact Hold|apply Hbad, Hv].
Qed.

(** X1.  Missing keys.  When none of the seven options can be retrieved the
    call returns [true] and leaves the configuration as it was. *)
Theorem parseParams_no_options (nh : NodeHandle) (p : RegistrationParams) :
  no_options nh -> parseParams nh p = (true, p).
Proof.
  intros (H1 & H2 & H3 & H4 & H5 & H6 & H7).
  unfold parseParams, parse_featureRegions, parse_curvatureRegion,
    parse_maxCornerSharp, parse_maxCornerLessSharp, parse_maxSurfaceFlat,
    parse_surfaceCurvatureThreshold, parse_lessFlatFilterSize.
  cbv zeta. rewrite H1, H2, H3, H4, H5, H6, H7. reflexivity.
Qed.

Lemma parseParams_no_options_witness :
  no_options nh_empty /\
  parseParams nh_empty config_sharp7 = (true, config_sharp7).
Proof.
  assert (Hnone : no_options nh_empty) by (repeat split).
  split; [exact Hnone|].
  exact (parseParams_no_options nh_empty config_sharp7 Hnone).
Defined.

(** X2.  Nothing else is read.  Two node handles that answer the seven lookups
    alike give the same flag and the same configuration, whatever else they
    hold. *)
Theorem parseParams_reads_seven_options (nh nh' : NodeHandle)
    (p : RegistrationParams) :
  same_options nh nh' -> parseParams nh p = parseParams nh' p.
Proof.
  intros (H1 & H2 & H3 & H4 & H5 & H6 & H7).
  unfold parseParams, parse_featureRegions, parse_curvatureRegion,
    parse_maxCornerSharp, parse_maxCornerLessSharp, parse_maxSurfaceFlat,
    parse_surfaceCurvatureThreshold, parse_lessFlatFilterSize.
  cbv zeta. rewrite H1, H2, H3, H4, H5, H6, H7. reflexivity.
Qed.

Lemma parseParams_reads_seven_options_witness :
  same_options nh_mixed nh_mixed_and_more /\
  parseParams nh_mixed RegistrationParams_default
  = parseParams nh_mixed_and_more RegistrationParams_default.
Proof.
  assert (Hsame : same_options nh_mixed nh_mixed_and_more) by (repeat split).
  split; [exact Hsame|].
  exact (parseParams_reads_seven_options nh_mixed nh_mixed_and_more
           RegistrationParams_default Hsame).
Defined.

(** X3.  Parsing twice.  A second call on the same node handle returns the
    same flag as the first and changes nothing more, also after a call that
    failed. *)
Theorem parseParams_idempotent (nh : NodeHandle) (p : RegistrationParams) :
  parseParams nh (snd (parseParams nh p)) = parseParams nh p.
Proof.
  rewrite (parseParams_pair nh (snd (parseParams nh p))).
  rewrite (parseParams_pair nh p) at 3.
  rewrite !parseParams_success, (parseParams_this nh (snd (parseParams nh p))).
  rewrite !(parseParams_this nh p). cbv zeta.
  cbn [nFeatureRegions curvatureRegion maxCornerSharp maxCornerLessSharp
       maxSurfaceFlat lessFlatFilterSize surfaceCurvatureThreshold].
  rewrite !keep_or_store_idem. f_equal. f_equal.
  unfold lessSharp_before_own_option.
  cbn [nFeatureRegions curvatureRegion maxCornerSharp maxCornerLessSharp
       maxSurfaceFlat lessFlatFilterSize surfaceCurvatureThreshold].
  destruct (getParam_int nh "maxCornerSharp") as [s|];
    destruct (getParam_int nh "maxCornerLessSharp") as [l|];
    cbn [keep_or_store]; unfold below_one;
    repeat match goal with
           | |- context [if ?c then _ else _] => destruct c
           end;
    reflexivity.
Qed.

(** X4.  On success.  When the call returns [true] the configuration is the
    prior one with every specified value laid over it; [maxCornerLessSharp]
    is the specified one, else ten times a specified [maxCornerSharp], else
    the prior one. *)
Theorem parseParams_true_overlay (nh : NodeHandle) (p : RegistrationParams) :
  fst (parseParams nh p) = true ->
  snd (parseParams nh p) = overlay nh p.
Proof.
  rewrite parseParams_success, parseParams_this, !andb_true_iff.
  intros [[[[[[H1 H2] H3] H4] H5] H6] H7]. cbv zeta. unfold overlay.
  rewrite (keep_or_store_accepted _ _ _ H4), (keep_or_store_accepted _ _ _ H1),
    (keep_or_store_accepted _ _ _ H2), (keep_or_store_accepted _ _ _ H3),
    (keep_or_store_accepted _ _ _ H5), (keep_or_store_accepted _ _ _ H6),
    (keep_or_store_accepted _ _ _ H7).
  do 3 f_equal. unfold lessSharp_before_own_option.
  destruct (getParam_int nh "maxCornerSharp") as [s|]; cbn; [|reflexivity].
  cbn in H3. unfold below_one in H3. destruct (s <? 1); [discriminate|].
  reflexivity.
Qed.

Lemma parseParams_true_overlay_witness :
  fst (parseParams nh_sharp_and_less config_sharp7) = true /\
  snd (parseParams nh_sharp_and_less config_sharp7)
  = overlay nh_sharp_and_less config_sharp7.
Proof.
  assert (Hok : fst (parseParams nh_sharp_and_less config_sharp7) = true)
    by reflexivity.
  split; [exact Hok|].
  exact (parseParams_true_overlay nh_sharp_and_less config_sharp7 Hok).
Defined.

(** X5.  The ranges are kept.  A configuration that meets the ranges still
    meets them after a call, whether the call returns [true] or [false],
    as long as no float option is specified as a NaN and ten times a
    specified [maxCornerSharp] fits an int. *)
Theorem parseParams_keeps_valid (nh : NodeHandle) (p : RegistrationParams) :
  config_valid p ->
  no_nan nh ->
  (forall s, getParam_int nh "maxCornerSharp" = Some s ->
             10 * s <= Int.max_signed) ->
  config_valid (snd (parseParams nh p)).
Proof.
  intros (H1 & H2 & H3 & H4 & H5 & H6 & H7) [Hthreshold Hsize] Hfit.
  rewrite parseParams_this. cbv zeta. unfold config_valid.
  cbn [nFeatureRegions curvatureRegion maxCornerSharp maxCornerLessSharp
       maxSurfaceFlat lessFlatFilterSize surfaceCurvatureThreshold].
  assert (Hint : forall o old, 1 <= old -> 1 <= keep_or_store o below_one old).
  { intros o old Hold. apply keep_or_store_valid; [|exact Hold].
    intros v Hv. apply below_bound_false, Hv. }
  assert (Hfloat : forall o old,
            o <> Some float_nan -> float_ge_min old ->
            float_ge_min (keep_or_store o float_below_min old)).
  { intros o old Hnum Hold. destruct o as [v|]; cbn; [|exact Hold].
    destruct (float_below_min v) eqn:Hv; [exact Hold|].
    apply float_below_min_false; [congruence|exact Hv]. }
  split; [apply Hint, H1|]. split; [apply Hint, H2|].
  split; [apply Hint, H3|].
  split; [|split; [apply Hint, H5|split; apply Hfloat; assumption]].
  unfold lessSharp_before_own_option.
  assert (Hbase :
            keep_or_store (getParam_int nh "maxCornerSharp") below_one
              (maxCornerSharp p)
            <= match getParam_int nh "maxCornerSharp" with
               | Some s =>
                   if s <? 1 then maxCornerLessSharp p else Int.mul 10 s
               | None => maxCornerLessSharp p
               end).
  { destruct (getParam_int nh "maxCornerSharp") as [s|] eqn:Hs;
      cbn [keep_or_store]; [|exact H4].
    unfold below_one. destruct (Z.ltb_spec s 1); [exact H4|].
    specialize (Hfit s eq_refl). rewrite Int_mul_exact; [lia|].
    unfold Int.in_range, Int.min_signed, Int.max_signed in *. lia. }
  destruct (getParam_int nh "maxCornerLessSharp") as [l|]; cbn [keep_or_store];
    [|exact Hbase].
  destruct (Z.ltb_spec l
              (keep_or_store (getParam_int nh "maxCornerSharp") below_one
                 (maxCornerSharp p))) as [Hlt|Hge]; [exact Hbase|exact Hge].
Qed.

Lemma config_sharp7_valid : config_valid config_sharp7.
Proof.
  unfold config_valid. cbn.
  repeat split; try lia; unfold Qle; cbn; lia.
Qed.

Lemma parseParams_keeps_valid_witness :
  config_valid config_sharp7 /\
  no_nan nh_sharp_and_less /\
  (forall s, getParam_int nh_sharp_and_less "maxCornerSharp" = Some s ->
             10 * s <= Int.max_signed) /\
  config_valid (snd (parseParams nh_sharp_and_less config_sharp7)).
Proof.
  assert (Hnum : no_nan nh_sharp_and_less) by (split; discriminate).
  assert (Hfit : forall s,
            getParam_int nh_sharp_and_less "maxCornerSharp" = Some s ->
            10 * s <= Int.max_signed).
  { intros s Hs. cbn in Hs. injection Hs as <-.
    unfold Int.max_signed. lia. }
  refine (conj config_sharp7_valid (conj Hnum (conj Hfit _))).
  exact (parseParams_keeps_valid nh_sharp_and_less config_sharp7
           config_sharp7_valid Hnum Hfit).
Defined.

(** X6.  Round trip.  A node handle that specifies the seven fields of a
    configuration within the ranges is accepted, and the call leaves
    exactly that configuration, whatever the prior one was. *)
Theorem parseParams_round_trip (p q : RegistrationParams) :
  config_valid p -> parseParams (NodeHandle_of_config p) q = (true, p).
Proof.
  intros (H1 & H2 & H3 & H4 & H5 & H6 & H7).
  assert (Hvalid : specified_valid (NodeHandle_of_config p) q).
  { unfold specified_valid, int_param_ok, float_param_ok,
      configured_maxCornerSharp. cbn. tauto. }
  assert (Hok : fst (parseParams (NodeHandle_of_config p) q) = true).
  { apply parseParams_verdict; [|exact Hvalid].
    exact (specified_valid_no_nan _ _ Hvalid). }
  rewrite parseParams_pair, (parseParams_true_overlay _ _ Hok), Hok.
  destruct p. reflexivity.
Qed.

Lemma parseParams_round_trip_witness :
  config_valid config_sharp7 /\
  parseParams (NodeHandle_of_config config_sharp7) RegistrationParams_default
  = (true, config_sharp7).
Proof.
  split; [exact config_sharp7_valid|].
  exact (parseParams_round_trip config_sharp7 RegistrationParams_default
           config_sharp7_valid).
Defined.

(** X7.  Parsing and constructing agree.  A node handle that specifies the
    six options the constructor takes, each within its range, and no
    [maxCornerLessSharp], is accepted and leaves the configuration the
    constructor builds from the same six values. *)
Theorem parseParams_matches_ctor (a b c d : Z) (e f : float)
    (q : RegistrationParams) :
  1 <= a -> 1 <= b -> 1 <= c -> 1 <= d ->
  float_ge_min e -> float_ge_min f ->
  parseParams (NodeHandle_of_args a b c d e f) q
  = (true,
     RegistrationParams_ctor (Some a) (Some b) (Some c) (Some d) (Some e)
       (Some f)).
Proof.
  intros Ha Hb Hc Hd He Hf.
  assert (Hvalid : specified_valid (NodeHandle_of_args a b c d e f) q).
  { unfold specified_valid, int_param_ok, float_param_ok,
      configured_maxCornerSharp. cbn. tauto. }
  assert (Hok : fst (parseParams (NodeHandle_of_args a b c d e f) q) = true).
  { apply parseParams_verdict; [|exact Hvalid].
    exact (specified_valid_no_nan _ _ Hvalid). }
  rewrite parseParams_pair, (parseParams_true_overlay _ _ Hok), Hok.
  reflexivity.
Qed.

Lemma parseParams_matches_ctor_witness :
  1 <= 8 /\ 1 <= 3 /\ 1 <= 1 /\ 1 <= 2 /\
  float_ge_min (float_num 0.5) /\ float_ge_min (float_num 0.001) /\
  parseParams
    (NodeHandle_of_args 8 3 1 2 (float_num 0.5) (float_num 0.001))
    config_sharp7
  = (true,
     RegistrationParams_ctor (Some 8) (Some 3) (Some 1) (Some 2)
       (Some (float_num 0.5)) (Some (float_num 0.001))).
Proof.
  assert (H8 : 1 <= 8) by lia. assert (H3 : 1 <= 3) by lia.
  assert (H1 : 1 <= 1) by lia. assert (H2 : 1 <= 2) by lia.
  assert (He : float_ge_min (float_num 0.5)) by (cbn; unfold Qle; cbn; lia).
  assert (Hf : float_ge_min (float_num 0.001)) by (cbn; unfold Qle; cbn; lia).
  refine (conj H8 (conj H3 (conj H1 (conj H2 (conj He (conj Hf _)))))).
  exact (parseParams_matches_ctor 8 3 1 2 (float_num 0.5) (float_num 0.001)
           config_sharp7 H8 H3 H1 H2 He Hf).
Defined.

(** X8.  When the constructor meets the ranges.  With ten times
    [maxCornerSharp_] fitting an int, the constructed configuration meets
    the ranges [parseParams] enforces exactly when the six arguments do;
    [maxCornerLessSharp] then needs no condition of its own. *)
Theorem RegistrationParams_ctor_valid_iff (a b c d : Z) (e f : float) :
  Int.in_range (10 * c) ->
  config_valid
    (RegistrationParams_ctor (Some a) (Some b) (Some c) (Some d) (Some e)
       (Some f))
  <-> 1 <= a /\ 1 <= b /\ 1 <= c /\ 1 <= d /\
      float_ge_min f /\ float_ge_min e.
Proof.
  intros Hfit. unfold config_valid, RegistrationParams_ctor, arg.
  cbn [nFeatureRegions curvatureRegion maxCornerSharp maxCornerLessSharp
       maxSurfaceFlat lessFlatFilterSize surfaceCurvatureThreshold].
  rewrite (Int_mul_exact 10 c Hfit). intuition lia.
Qed.

Lemma RegistrationParams_ctor_valid_iff_witness :
  Int.in_range (10 * 7) /\
  config_valid
    (RegistrationParams_ctor (Some 6) (Some 5) (Some 7) (Some 4)
       (Some (float_num 0.2)) (Some (float_num 0.1))).
Proof.
  assert (Hfit : Int.in_range (10 * 7)).
  { unfold Int.in_range, Int.min_signed, Int.max_signed. lia. }
  split; [exact Hfit|].
  apply (RegistrationParams_ctor_valid_iff 6 5 7 4 (float_num 0.2)
           (float_num 0.1) Hfit).
  repeat split; try lia; cbn; unfold Qle; cbn; lia.
Defined.

(** * Interpolation on references *)

Section IMURefFacts.

Context {Angle : Type} {AO : AngleOps Angle}.

Local Open Scope R_scope.

Lemma update_same (h : Store) (a : nat) (s : IMUState Angle) :
  update h a s a = s.
Proof. unfold update. rewrite Nat.eqb_refl. reflexivity. Qed.

Lemma update_other (h : Store) (a b : nat) (s : IMUState Angle) :
  b <> a -> update h a s b = h b.
Proof.
  intros Hne. unfold update. destruct (Nat.eqb_spec b a); [contradiction|].
  reflexivity.
Qed.

(** Reading a field through an address after [result] has been written,
    when the write left that field alone. *)
Lemma update_field {B : Type} (proj : IMUState Angle -> B) (h : Store)
    (result a : nat) (s : IMUState Angle) :
  proj s = proj (h result) -> proj (update h result s a) = proj (h a).
Proof.
  intros Hkeep. unfold update. destruct (Nat.eqb_spec a result) as [->|_].
  - exact Hkeep.
  - reflexivity.
Qed.

(** X14.  Passing the same object twice is harmless.  Whatever addresses are
    given for [start], [end] and [result], equal or not, the state left at
    [result] is the one the function computes from the three states as
    they were before the call, and no other address is written. *)
Theorem interpolate_ref_sound (start end_ result : nat) (ratio : R)
    (h : Store) :
  interpolate_ref start end_ result ratio h result
  = interpolate (h start) (h end_) ratio (h result) /\
  forall a, a <> result -> interpolate_ref start end_ result ratio h a = h a.
Proof.
  unfold interpolate_ref, interpolate. cbv zeta.
  set (h1 := update h result _).
  assert (Hpitch1 : forall a, pitch (h1 a) = pitch (h a))
    by (intros a; apply update_field; reflexivity).
  assert (Hyaw1 : forall a, yaw (h1 a) = yaw (h a))
    by (intros a; apply update_field; reflexivity).
  assert (Hvel1 : forall a, velocity (h1 a) = velocity (h a))
    by (intros a; apply update_field; reflexivity).
  assert (Hpos1 : forall a, position (h1 a) = position (h a))
    by (intros a; apply update_field; reflexivity).
  set (h2 := update h1 result _).
  assert (Hyaw2 : forall a, yaw (h2 a) = yaw (h a))
    by (intros a; rewrite <- Hyaw1; apply update_field; reflexivity).
  assert (Hvel2 : forall a, velocity (h2 a) = velocity (h a))
    by (intros a; rewrite <- Hvel1; apply update_field; reflexivity).
  assert (Hpos2 : forall a, position (h2 a) = position (h a))
    by (intros a; rewrite <- Hpos1; apply update_field; reflexivity).
  rewrite !Hyaw2.
  set (h3 := if Rgt_dec _ _ then _ else _).
  assert (Hvel3 : forall a, velocity (h3 a) = velocity (h a)).
  { intros a. rewrite <- Hvel2. subst h3.
    destruct (Rgt_dec _ _); [|destruct (Rlt_dec _ _)];
      apply update_field; reflexivity. }
  assert (Hpos3 : forall a, position (h3 a) = position (h a)).
  { intros a. rewrite <- Hpos2. subst h3.
    destruct (Rgt_dec _ _); [|destruct (Rlt_dec _ _)];
      apply update_field; reflexivity. }
  rewrite !Hvel3.
  set (h4 := update h3 result _).
  assert (Hpos4 : forall a, position (h4 a) = position (h a))
    by (intros a; rewrite <- Hpos3; apply update_field; reflexivity).
  rewrite !Hpos4. split.
  - rewrite update_same. subst h4. rewrite update_same. subst h3.
    destruct (Rgt_dec _ _); [|destruct (Rlt_dec _ _)];
      rewrite update_same; subst h2; rewrite update_same, !Hpitch1;
      subst h1; rewrite update_same; reflexivity.
  - intros a Hne. rewrite update_other by exact Hne.
    subst h4. rewrite update_other by exact Hne. subst h3.
    destruct (Rgt_dec _ _); [|destruct (Rlt_dec _ _)];
      rewrite update_other by exact Hne;
      subst h2; rewrite update_other by exact Hne;
      subst h1; rewrite update_other by exact Hne; reflexivity.
Qed.

End IMURefFacts.

Lemma interpolate_ref_sound_witness :
  (1 <> 0)%nat /\
  interpolate_ref (AO := PlainAngle) 0 1 0 (1 / 2) store_two 1%nat
  = store_two 1%nat /\
  interpolate_ref (AO := PlainAngle) 0 1 0 (1 / 2) store_two 0%nat
  = interpolate (AO := PlainAngle) (store_two 0%nat) (store_two 1%nat) (1 / 2)
      (store_two 0%nat).
Proof.
  assert (Hne : (1 <> 0)%nat) by discriminate.
  destruct (interpolate_ref_sound (AO := PlainAngle) 0 1 0 (1 / 2) store_two)
    as [Hresult Hframe].
  exact (conj Hne (conj (Hframe 1%nat Hne) Hresult)).
Defined.
